(** * The analyzer dispatcher of fanal ([analyzer/analyzer.go])

    A shallow embedding of the package [analyzer]: the three plugin
    registries, the required-file aggregation, the two extraction entry
    points and the three resolvers, followed by the properties the
    specification states about them.

    Conventions of the embedding.
    - A Go [string] is a [string]; a Go slice is a [list] (the nil slice and
      the empty slice are both the empty list, nothing below tells them
      apart); a Go [map] is an [option (gmap _ _)] where [None] is the nil
      map; the interface type [error] is [option error] where [None] is nil.
    - A Go function returning [(T, error)] returns the pair of both values.
    - Plugin code (the methods of the analyzers and of the extractor) is
      foreign: it may read and write whatever lies outside this package.
      That outside world is a type [W], and a call is a function
      [W -> A * W].  The package's own variables (the three registries) are
      kept apart from [W] in a record [Registry]; plugin methods are not
      given access to it. *)

From Stdlib Require Import ZArith.
From stdpp Require Import base option list strings gmap fin_maps.

Local Open Scope Z_scope.
Local Open Scope list_scope.

(** ** Calls with effects *)

Definition M (W A : Type) : Type := W -> A * W.

Definition ret {W A : Type} (a : A) : M W A := fun w => (a, w).

Definition bind {W A B : Type} (m : M W A) (k : A -> M W B) : M W B :=
  fun w => let (a, w') := m w in k a w'.

Declare Scope go_scope.
Delimit Scope go_scope with go.
Notation "'let*' p ':=' m 'in' k" := (bind m (fun p => k))
  (at level 10, p pattern, m at level 100, k at level 200) : go_scope.
Local Open Scope go_scope.

(** ** Error values

    One constructor per way this file (and a plugin) builds an error:
    [errors.New(msg)], [errors.Wrap(err, msg)] of github.com/pkg/errors, and
    [xerrors.Errorf(format, err)] whose format ends in the wrapping verb. *)

Inductive error : Type :=
| errors_New (message : string)
| errors_Wrap (err : error) (message : string)
| xerrors_Errorf (format : string) (err : error).

(** ErrUnknownOS occurs when unknown OS is analyzed. *)
Definition ErrUnknownOS : error := errors_New "Unknown OS".
(** ErrPkgAnalysis occurs when the analysis of packages is failed. *)
Definition ErrPkgAnalysis : error := errors_New "Failed to analyze packages".

(** ** Data model *)

Definition FilePath : Type := string.

Record OS : Type := mkOS {
  OS_Name : string;
  OS_Family : string
}.

Record Package : Type := mkPackage {
  Package_Name : string;
  Package_Version : string;
  Package_Release : string;
  Package_Epoch : Z;
  Package_Type : string
}.

Definition TypeBinary : string := "binary".
Definition TypeSource : string := "source".

Record SrcPackage : Type := mkSrcPackage {
  SrcPackage_Name : string;
  SrcPackage_Version : string;
  SrcPackage_BinaryNames : list string
}.

(** The zero value [OS{}]. *)
Definition OS_zero : OS := {| OS_Name := ""; OS_Family := "" |}.

(** Modelled from the spec: [extractor.FileMap] is declared in the package
    [extractor], outside this file; the spec describes it as "mapping a
    path to its bytes".  [None] is the nil map. *)
Definition FileMap : Type := option (gmap string (list Byte.byte)).

(** [time.Duration] counts nanoseconds in an int64. *)
Definition time_Second : Z := 1000000000.
Definition int64_max : Z := 2 ^ 63 - 1.

(** [extractor.DockerOption]: of its fields this file only ever sets
    [Timeout]; the others stay at their zero values in every call made here
    and are left out. *)
Record DockerOption : Type := mkDockerOption {
  Timeout : Z
}.

(** The zero value [extractor.DockerOption{}]. *)
Definition DockerOption_zero : DockerOption := {| Timeout := 0 |}.

(** [func CheckPackage(pkg *Package) bool], on the package pointed to. *)
Definition CheckPackage (pkg : Package) : bool :=
  negb (String.eqb (Package_Name pkg) "")
  && negb (String.eqb (Package_Version pkg) "").

Section Analyzer.

(** [W]: the world outside the package.  [Library]: [types.Library] of
    go-dep-parser, passed through untouched.  [Ctx]: [context.Context].
    [ReadCloser]: [io.ReadCloser], a handle on a stream that lives in [W]. *)
Context {W Library Ctx ReadCloser : Type}.

(** The result type of a library analyzer, [map[FilePath][]types.Library]. *)
Definition LibMap : Type := option (gmap FilePath (list Library)).

(** *** The three plugin interfaces *)

Record OSAnalyzer : Type := mkOSAnalyzer {
  OSAnalyzer_Analyze : FileMap -> M W (OS * option error);
  OSAnalyzer_RequiredFiles : M W (list string)
}.

Record PkgAnalyzer : Type := mkPkgAnalyzer {
  PkgAnalyzer_Analyze : FileMap -> M W (list Package * option error);
  PkgAnalyzer_RequiredFiles : M W (list string)
}.

Record LibraryAnalyzer : Type := mkLibraryAnalyzer {
  LibraryAnalyzer_Analyze : FileMap -> M W (LibMap * option error);
  LibraryAnalyzer_RequiredFiles : M W (list string)
}.

(** What the three interfaces share: the method [RequiredFiles]. *)
Class HasRequiredFiles (A : Type) : Type :=
  RequiredFiles : A -> M W (list string).

#[global] Instance OSAnalyzer_HasRequiredFiles : HasRequiredFiles OSAnalyzer :=
  OSAnalyzer_RequiredFiles.
#[global] Instance PkgAnalyzer_HasRequiredFiles : HasRequiredFiles PkgAnalyzer :=
  PkgAnalyzer_RequiredFiles.
#[global] Instance LibraryAnalyzer_HasRequiredFiles :
  HasRequiredFiles LibraryAnalyzer := LibraryAnalyzer_RequiredFiles.

(** *** The external extractor

    The value [extractor.NewDockerExtractor] returns, with the two methods
    called here. *)
Record Extractor : Type := mkExtractor {
  Extract : Ctx -> string -> list string -> M W (FileMap * option error);
  ExtractFromFile :
    Ctx -> ReadCloser -> list string -> M W (FileMap * option error)
}.

(** *** The package variables *)

Record Registry : Type := mkRegistry {
  osAnalyzers : list OSAnalyzer;
  pkgAnalyzers : list PkgAnalyzer;
  libAnalyzers : list LibraryAnalyzer
}.

(** The state at program start: three nil slices. *)
Definition Registry_init : Registry :=
  {| osAnalyzers := []; pkgAnalyzers := []; libAnalyzers := [] |}.

Definition RegisterOSAnalyzer (analyzer : OSAnalyzer) (g : Registry) : Registry :=
  {| osAnalyzers := osAnalyzers g ++ [analyzer];
     pkgAnalyzers := pkgAnalyzers g;
     libAnalyzers := libAnalyzers g |}.

Definition RegisterPkgAnalyzer (analyzer : PkgAnalyzer) (g : Registry) : Registry :=
  {| osAnalyzers := osAnalyzers g;
     pkgAnalyzers := pkgAnalyzers g ++ [analyzer];
     libAnalyzers := libAnalyzers g |}.

Definition RegisterLibraryAnalyzer (analyzer : LibraryAnalyzer) (g : Registry)
  : Registry :=
  {| osAnalyzers := osAnalyzers g;
     pkgAnalyzers := pkgAnalyzers g;
     libAnalyzers := libAnalyzers g ++ [analyzer] |}.

(** *** RequiredFilenames

    One [for _, analyzer := range xs { filenames = append(filenames,
    analyzer.RequiredFiles()...) }] loop. *)
Fixpoint appendRequiredFiles {A : Type} `{HasRequiredFiles A}
    (analyzers : list A) (filenames : list string) : M W (list string) :=
  match analyzers with
  | [] => ret filenames
  | analyzer :: rest =>
      let* files := RequiredFiles analyzer in
      appendRequiredFiles rest (filenames ++ files)
  end.

Definition RequiredFilenames (g : Registry) : M W (list string) :=
  let filenames := [] in
  let* filenames := appendRequiredFiles (osAnalyzers g) filenames in
  let* filenames := appendRequiredFiles (pkgAnalyzers g) filenames in
  let* filenames := appendRequiredFiles (libAnalyzers g) filenames in
  ret filenames.

(** *** The extraction entry points *)

Section Extraction.

(** [extractor.NewDockerExtractor], which lives outside this file. *)
Variable NewDockerExtractor : DockerOption -> M W Extractor.

Definition Analyze (g : Registry) (ctx : Ctx) (imageName : string)
  : M W (FileMap * option error) :=
  let* e := NewDockerExtractor {| Timeout := 600 * time_Second |} in
  let* filenames := RequiredFilenames g in
  let* (filesMap, err) := Extract e ctx imageName filenames in
  match err with
  | Some err => ret (None, Some (errors_Wrap err "Failed to extract files"))
  | None => ret (filesMap, None)
  end.

Definition AnalyzeFromFile (g : Registry) (ctx : Ctx) (r : ReadCloser)
  : M W (FileMap * option error) :=
  let* e := NewDockerExtractor DockerOption_zero in
  let* filenames := RequiredFilenames g in
  let* (filesMap, err) := ExtractFromFile e ctx r filenames in
  match err with
  | Some err => ret (None, Some (errors_Wrap err "Failed to extract files"))
  | None => ret (filesMap, None)
  end.

End Extraction.

(** *** The OS and package resolvers *)

Fixpoint GetOS_range (analyzers : list OSAnalyzer) (filesMap : FileMap)
  : M W (OS * option error) :=
  match analyzers with
  | [] => ret (OS_zero, Some ErrUnknownOS)
  | analyzer :: rest =>
      let* (os, err) := OSAnalyzer_Analyze analyzer filesMap in
      match err with
      | Some _ => GetOS_range rest filesMap
      | None => ret (os, None)
      end
  end.

Definition GetOS (g : Registry) (filesMap : FileMap) : M W (OS * option error) :=
  GetOS_range (osAnalyzers g) filesMap.

Fixpoint GetPackages_range (analyzers : list PkgAnalyzer) (filesMap : FileMap)
  : M W (list Package * option error) :=
  match analyzers with
  | [] => ret ([], Some ErrUnknownOS)
  | analyzer :: rest =>
      let* (pkgs, err) := PkgAnalyzer_Analyze analyzer filesMap in
      match err with
      | Some _ => GetPackages_range rest filesMap
      | None => ret (pkgs, None)
      end
  end.

Definition GetPackages (g : Registry) (filesMap : FileMap)
  : M W (list Package * option error) :=
  GetPackages_range (pkgAnalyzers g) filesMap.

(** *** The library resolver

    Go leaves open the order in which [range] visits the entries of a map,
    and the order may change from one loop to the next.  A [RangeOrder]
    fixes it: [ord i m] is the sequence in which the inner loop visits the
    map [m] returned by the [i]-th analyzer of a call.  It is lawful when
    every entry is visited exactly once. *)
Definition RangeOrder : Type :=
  nat -> gmap FilePath (list Library) -> list (FilePath * list Library).

Definition range_lawful (ord : RangeOrder) : Prop :=
  forall i m, ord i m ≡ₚ map_to_list m.

(** Ranging over the nil map runs the body zero times. *)
Definition range (ord : RangeOrder) (i : nat) (libMap : LibMap)
  : list (FilePath * list Library) :=
  match libMap with
  | None => []
  | Some m => ord i m
  end.

(** [for filePath, libs := range libMap { results[filePath] = libs }] on the
    entries in the order visited. *)
Fixpoint assignEntries (entries : list (FilePath * list Library))
    (results : gmap FilePath (list Library)) : gmap FilePath (list Library) :=
  match entries with
  | [] => results
  | (filePath, libs) :: rest => assignEntries rest (<[filePath := libs]> results)
  end.

Fixpoint GetLibraries_range (ord : RangeOrder) (i : nat)
    (analyzers : list LibraryAnalyzer) (filesMap : FileMap)
    (results : gmap FilePath (list Library)) : M W (LibMap * option error) :=
  match analyzers with
  | [] => ret (Some results, None)
  | analyzer :: rest =>
      let* (libMap, err) := LibraryAnalyzer_Analyze analyzer filesMap in
      match err with
      | Some err =>
          ret (None, Some (xerrors_Errorf "failed to analyze libraries: %w" err))
      | None =>
          GetLibraries_range ord (S i) rest filesMap
            (assignEntries (range ord i libMap) results)
      end
  end.

Definition GetLibraries (ord : RangeOrder) (g : Registry) (filesMap : FileMap)
  : M W (LibMap * option error) :=
  let results := ∅ in
  GetLibraries_range ord 0%nat (libAnalyzers g) filesMap results.

(** *** The package as a state machine

    Every exported function is a call; the state is the three package
    variables together with the outside world.  Results are dropped: only
    what a call leaves behind is kept. *)
Inductive Call : Type :=
| CallRegisterOSAnalyzer (analyzer : OSAnalyzer)
| CallRegisterPkgAnalyzer (analyzer : PkgAnalyzer)
| CallRegisterLibraryAnalyzer (analyzer : LibraryAnalyzer)
| CallRequiredFilenames
| CallAnalyze (ctx : Ctx) (imageName : string)
| CallAnalyzeFromFile (ctx : Ctx) (r : ReadCloser)
| CallGetOS (filesMap : FileMap)
| CallGetPackages (filesMap : FileMap)
| CallCheckPackage (pkg : Package)
| CallGetLibraries (ord : RangeOrder) (filesMap : FileMap).

Definition exec (NewDockerExtractor : DockerOption -> M W Extractor)
    (c : Call) (s : Registry * W) : Registry * W :=
  let (g, w) := s in
  match c with
  | CallRegisterOSAnalyzer analyzer => (RegisterOSAnalyzer analyzer g, w)
  | CallRegisterPkgAnalyzer analyzer => (RegisterPkgAnalyzer analyzer g, w)
  | CallRegisterLibraryAnalyzer analyzer =>
      (RegisterLibraryAnalyzer analyzer g, w)
  | CallRequiredFilenames => (g, snd (RequiredFilenames g w))
  | CallAnalyze ctx imageName =>
      (g, snd (Analyze NewDockerExtractor g ctx imageName w))
  | CallAnalyzeFromFile ctx r =>
      (g, snd (AnalyzeFromFile NewDockerExtractor g ctx r w))
  | CallGetOS filesMap => (g, snd (GetOS g filesMap w))
  | CallGetPackages filesMap => (g, snd (GetPackages g filesMap w))
  | CallCheckPackage pkg => let _ := CheckPackage pkg in (g, w)
  | CallGetLibraries ord filesMap => (g, snd (GetLibraries ord g filesMap w))
  end.

Definition exec_all (NewDockerExtractor : DockerOption -> M W Extractor)
    (cs : list Call) (s : Registry * W) : Registry * W :=
  fold_left (fun s c => exec NewDockerExtractor c s) cs s.

End Analyzer.

Arguments OSAnalyzer W : clear implicits.
Arguments PkgAnalyzer W : clear implicits.
Arguments LibraryAnalyzer W Library : clear implicits.
Arguments Extractor W Ctx ReadCloser : clear implicits.
Arguments Registry W Library : clear implicits.
Arguments Call W Library Ctx ReadCloser : clear implicits.
Arguments LibMap Library : clear implicits.
Arguments RangeOrder Library : clear implicits.

(** ** Vocabulary of the specification *)

Section Vocabulary.

Context {W Library : Type}.

(** "Every analyzer of the list was tried and returned an error": the calls
    are made in list order, each in the world its predecessor left. *)
Inductive all_errored {A R : Type}
    (analyze : A -> FileMap -> M W (R * option error)) (filesMap : FileMap)
  : list A -> W -> W -> Prop :=
| all_errored_nil (w : W) : all_errored analyze filesMap [] w w
| all_errored_cons (a : A) (rest : list A) (r : R) (e : error) (w w1 w2 : W) :
    analyze a filesMap w = ((r, Some e), w1) ->
    all_errored analyze filesMap rest w1 w2 ->
    all_errored analyze filesMap (a :: rest) w w2.

(** "Every library analyzer of the list ran and succeeded", with the maps
    they returned, in list order. *)
Inductive all_succeeded (filesMap : FileMap)
  : list (LibraryAnalyzer W Library) -> W -> list (LibMap Library) -> W -> Prop :=
| all_succeeded_nil (w : W) : all_succeeded filesMap [] w [] w
| all_succeeded_cons (a : LibraryAnalyzer W Library)
    (rest : list (LibraryAnalyzer W Library)) (libMap : LibMap Library)
    (libMaps : list (LibMap Library)) (w w1 w2 : W) :
    LibraryAnalyzer_Analyze a filesMap w = ((libMap, None), w1) ->
    all_succeeded filesMap rest w1 libMaps w2 ->
    all_succeeded filesMap (a :: rest) w (libMap :: libMaps) w2.

(** The entries of a returned map; the nil map has none. *)
Definition entries (libMap : LibMap Library) : gmap FilePath (list Library) :=
  default ∅ libMap.

(** The merge as the specification words it: a fold over the results in
    registration order in which, key by key, the later result replaces the
    earlier one ([∪] keeps its left operand on a collision). *)
Definition merge_in_order (libMaps : list (LibMap Library))
  : gmap FilePath (list Library) :=
  fold_left (fun results libMap => entries libMap ∪ results) libMaps ∅.

(** "Ask every analyzer of the list, in order, for its required files." *)
Fixpoint RequiredFiles_each {A : Type} `{!HasRequiredFiles (W:=W) A}
    (analyzers : list A) : M W (list (list string)) :=
  match analyzers with
  | [] => ret []
  | analyzer :: rest =>
      let* files := RequiredFiles analyzer in
      let* more := RequiredFiles_each rest in
      ret (files :: more)
  end.

(** How often a path occurs in a list of paths. *)
Definition occurrences (path : string) (paths : list string) : nat :=
  length (filter (fun p => p = path) paths).

(** A library analyzer is deterministic when what it returns depends on the
    file map alone, not on the world it is called in. *)
Definition deterministic (a : LibraryAnalyzer W Library) : Prop :=
  forall (filesMap : FileMap) (w w' : W),
    fst (LibraryAnalyzer_Analyze a filesMap w)
    = fst (LibraryAnalyzer_Analyze a filesMap w').

(** One list extends another at its end. *)
Definition extends {A : Type} (new old : list A) : Prop :=
  exists added, new = old ++ added.

(** The three lists of the state after a call extend those before it. *)
Definition registry_extends (g' g : Registry W Library) : Prop :=
  extends (osAnalyzers g') (osAnalyzers g)
  /\ extends (pkgAnalyzers g') (pkgAnalyzers g)
  /\ extends (libAnalyzers g') (libAnalyzers g).

End Vocabulary.

(** ** Vocabulary of call sequences *)

Section CallVocabulary.

Context {W Library Ctx ReadCloser : Type}.

(** The analyzer a call registers, if it is a registration of that kind. *)
Definition registered_os (c : Call W Library Ctx ReadCloser)
  : option (OSAnalyzer W) :=
  match c with
  | CallRegisterOSAnalyzer analyzer => Some analyzer
  | _ => None
  end.

Definition registered_pkg (c : Call W Library Ctx ReadCloser)
  : option (PkgAnalyzer W) :=
  match c with
  | CallRegisterPkgAnalyzer analyzer => Some analyzer
  | _ => None
  end.

Definition registered_lib (c : Call W Library Ctx ReadCloser)
  : option (LibraryAnalyzer W Library) :=
  match c with
  | CallRegisterLibraryAnalyzer analyzer => Some analyzer
  | _ => None
  end.

(** Two returned maps do not collide: a path both hold maps to the same
    list in both. *)
Definition agree (m1 m2 : LibMap Library) : Prop :=
  forall (path : FilePath) (libs1 libs2 : list Library),
    entries m1 !! path = Some libs1 ->
    entries m2 !! path = Some libs2 ->
    libs1 = libs2.

End CallVocabulary.


(** ** A recording world

    To observe which foreign calls are made, with which arguments and in
    which order, the world is instantiated with a log of events, and the
    extractor and the analyzers with stubs that append to it. *)

Section Recording.

Context {Ctx ReadCloser : Type}.

Inductive Event : Type :=
| Analyzed (name : string)
| Extracted (option : DockerOption) (ctx : Ctx) (imageName : string)
    (filenames : list string)
| ExtractedFromFile (option : DockerOption) (ctx : Ctx) (r : ReadCloser)
    (filenames : list string).

Definition record {A : Type} (ev : Event) (a : A) : M (list Event) A :=
  fun w => (a, w ++ [ev]).

(** An extractor that logs each call with the option it was built from and
    answers [result]. *)
Definition recorder (result : FileMap * option error) (option : DockerOption)
  : M (list Event) (Extractor (list Event) Ctx ReadCloser) :=
  ret {| Extract := fun ctx imageName filenames =>
           record (Extracted option ctx imageName filenames) result;
         ExtractFromFile := fun ctx r filenames =>
           record (ExtractedFromFile option ctx r filenames) result |}.

Definition osRecognizes (name : string) (os : OS) (files : list string)
  : OSAnalyzer (list Event) :=
  {| OSAnalyzer_Analyze := fun _ => record (Analyzed name) (os, None);
     OSAnalyzer_RequiredFiles := ret files |}.

Definition osRejects (name : string) (files : list string)
  : OSAnalyzer (list Event) :=
  {| OSAnalyzer_Analyze := fun _ =>
       record (Analyzed name) (OS_zero, Some (errors_New name));
     OSAnalyzer_RequiredFiles := ret files |}.

Definition pkgRecognizes (name : string) (pkgs : list Package)
    (files : list string) : PkgAnalyzer (list Event) :=
  {| PkgAnalyzer_Analyze := fun _ => record (Analyzed name) (pkgs, None);
     PkgAnalyzer_RequiredFiles := ret files |}.

Definition pkgRejects (name : string) (files : list string)
  : PkgAnalyzer (list Event) :=
  {| PkgAnalyzer_Analyze := fun _ =>
       record (Analyzed name) ([], Some (errors_New name));
     PkgAnalyzer_RequiredFiles := ret files |}.

Definition libReturns (name : string) (libMap : LibMap string)
    (files : list string) : LibraryAnalyzer (list Event) string :=
  {| LibraryAnalyzer_Analyze := fun _ => record (Analyzed name) (libMap, None);
     LibraryAnalyzer_RequiredFiles := ret files |}.

Definition libFails (name : string) (files : list string)
  : LibraryAnalyzer (list Event) string :=
  {| LibraryAnalyzer_Analyze := fun _ =>
       record (Analyzed name) (None, Some (errors_New name));
     LibraryAnalyzer_RequiredFiles := ret files |}.

(** An analyzer whose answer depends on the world: it succeeds only where
    nothing has been logged yet. *)
Definition libOnce (name : string) (libMap : LibMap string)
  : LibraryAnalyzer (list Event) string :=
  {| LibraryAnalyzer_Analyze := fun _ w =>
       match w with
       | [] => ((libMap, None), [Analyzed name])
       | _ => ((None, Some (errors_New name)), w ++ [Analyzed name])
       end;
     LibraryAnalyzer_RequiredFiles := ret [] |}.

(** Two lawful orders: the one of [map_to_list], and its reverse. *)
Definition ascending : RangeOrder string := fun _ m => map_to_list m.
Definition descending : RangeOrder string := fun _ m => reverse (map_to_list m).

End Recording.

Arguments Event Ctx ReadCloser : clear implicits.

(** ** A small installation

    The world is a log without contexts and streams of interest; libraries
    are named by strings. *)

Definition World : Type := list (Event unit unit).

Definition debian : OS := {| OS_Name := "10.3"; OS_Family := "debian" |}.
Definition ubuntu : OS := {| OS_Name := "18.04"; OS_Family := "ubuntu" |}.

Definition bash : Package :=
  {| Package_Name := "bash"; Package_Version := "5.0"; Package_Release := "4";
     Package_Epoch := 0; Package_Type := TypeBinary |}.

Definition alpineOS : OSAnalyzer World :=
  osRejects "alpine" ["etc/alpine-release"; "etc/os-release"].
Definition debianOS : OSAnalyzer World :=
  osRecognizes "debian" debian ["etc/os-release"].
Definition ubuntuOS : OSAnalyzer World :=
  osRecognizes "ubuntu" ubuntu ["etc/lsb-release"].

Definition apk : PkgAnalyzer World := pkgRejects "apk" ["lib/apk/db/installed"].
Definition dpkg : PkgAnalyzer World :=
  pkgRecognizes "dpkg" [bash] ["var/lib/dpkg/status"].

Definition libA : LibraryAnalyzer World string :=
  libReturns "A" (Some {["/a" := ["lib1"]]}) ["Gemfile.lock"].
Definition libB : LibraryAnalyzer World string :=
  libReturns "B" (Some {["/a" := ["lib2"]]}) ["Cargo.lock"].
Definition libBroken : LibraryAnalyzer World string :=
  libFails "broken" ["Pipfile.lock"].

(** Registered in the order alpine, debian, ubuntu; apk, dpkg; A, B. *)
Definition installed : Registry World string :=
  RegisterLibraryAnalyzer libB (RegisterLibraryAnalyzer libA
    (RegisterPkgAnalyzer dpkg (RegisterPkgAnalyzer apk
      (RegisterOSAnalyzer ubuntuOS (RegisterOSAnalyzer debianOS
        (RegisterOSAnalyzer alpineOS Registry_init)))))).

(** Library analyzers A, broken, B, in that order. *)
Definition installed_broken : Registry World string :=
  RegisterLibraryAnalyzer libB (RegisterLibraryAnalyzer libBroken
    (RegisterLibraryAnalyzer libA Registry_init)).

(** An extractor that fails, and one that delivers a file. *)
Definition pull_failed : FileMap * option error :=
  (Some ∅, Some (errors_New "pull failed")).
Definition pulled : FileMap * option error :=
  (Some {["etc/os-release" := []]}, None).

(** A factory that answers like [recorder pulled] for the two options this
    package uses, and with a failing extractor for every other option. *)
Definition picky (option : DockerOption)
  : M World (Extractor World unit unit) :=
  if bool_decide (Timeout option = 600 * time_Second \/ Timeout option = 0)
  then recorder pulled option
  else recorder pull_failed option.


(** A third library analyzer, on a path of its own, and two registries that
    hold A and C in different orders, C twice in the second. *)
Definition libC : LibraryAnalyzer World string :=
  libReturns "C" (Some {["/c" := ["lib3"]]}) ["go.sum"].

Definition installed_ac : Registry World string :=
  RegisterLibraryAnalyzer libC (RegisterLibraryAnalyzer libA Registry_init).

Definition installed_cac : Registry World string :=
  RegisterLibraryAnalyzer libC (RegisterLibraryAnalyzer libA
    (RegisterLibraryAnalyzer libC Registry_init)).

(** What a library analyzer answers on the nil file map in the empty
    world. *)
Definition answer_of (a : LibraryAnalyzer World string) : LibMap string :=
  fst (fst (LibraryAnalyzer_Analyze a None [])).


(** A log that holds nothing but analysis events. *)
Definition only_analyses (log : World) : Prop :=
  forall ev, ev ∈ log -> exists name, ev = Analyzed name.


(** * Properties *)

(** ** CheckPackage *)

Lemma eqb_empty_false (s : string) : negb (String.eqb s "") = true <-> s <> "".
Proof.
  rewrite negb_true_iff. split.
  - intros H ->. discriminate.
  - intros H. apply String.eqb_neq. exact H.
Qed.

(** C6. For every package, [CheckPackage] answers true exactly when both
    [Name] and [Version] are non-empty; an empty name with version "1.0" is
    rejected, name "foo" with an empty version is rejected, and name "foo"
    with version "1.0" is accepted, whatever the other fields hold. *)
Theorem CheckPackage_name_and_version :
  (forall pkg : Package,
     CheckPackage pkg = true
     <-> Package_Name pkg <> "" /\ Package_Version pkg <> "")
  /\ (forall release epoch type,
        CheckPackage (mkPackage "" "1.0" release epoch type) = false)
  /\ (forall release epoch type,
        CheckPackage (mkPackage "foo" "" release epoch type) = false)
  /\ (forall release epoch type,
        CheckPackage (mkPackage "foo" "1.0" release epoch type) = true).
Proof.
  split; [|by repeat split].
  intros pkg. unfold CheckPackage.
  rewrite andb_true_iff, !eqb_empty_false. reflexivity.
Qed.

Section Properties.

Context {W Library Ctx ReadCloser : Type}.

Implicit Types (g : Registry W Library) (filesMap : FileMap) (w : W).

(** ** The registries *)

Lemma extends_refl {A : Type} (l : list A) : extends l l.
Proof. exists []. by rewrite app_nil_r. Qed.

Lemma extends_snoc {A : Type} (l : list A) (a : A) : extends (l ++ [a]) l.
Proof. by exists [a]. Qed.

Lemma extends_trans {A : Type} (l1 l2 l3 : list A) :
  extends l3 l2 -> extends l2 l1 -> extends l3 l1.
Proof.
  intros [k2 ->] [k1 ->]. exists (k1 ++ k2). by rewrite app_assoc.
Qed.

Lemma extends_lookup {A : Type} (new old : list A) (i : nat) (a : A) :
  extends new old -> old !! i = Some a -> new !! i = Some a.
Proof. intros [k ->] H. by apply lookup_app_l_Some. Qed.

Lemma exec_extends (New : DockerOption -> M W (Extractor W Ctx ReadCloser))
    (c : Call W Library Ctx ReadCloser) (s : Registry W Library * W) :
  registry_extends (fst (exec New c s)) (fst s).
Proof.
  destruct s as [g w], c; simpl;
    (split; [|split]); try apply extends_refl; apply extends_snoc.
Qed.

Lemma exec_all_extends (New : DockerOption -> M W (Extractor W Ctx ReadCloser))
    (cs : list (Call W Library Ctx ReadCloser)) (s : Registry W Library * W) :
  registry_extends (fst (exec_all New cs s)) (fst s).
Proof.
  unfold exec_all. revert s.
  induction cs as [|c cs IH]; intros s; simpl.
  - split; [|split]; apply extends_refl.
  - destruct (IH (exec New c s)) as (Ho & Hp & Hl).
    destruct (exec_extends New c s) as (Ho' & Hp' & Hl').
    split; [|split]; eauto using extends_trans.
Qed.

(** C9. Each registration appends the analyzer at the end of its own list
    and leaves the other two lists as they were; and over any sequence of
    calls of the package's functions each list only grows at its end, so an
    analyzer registered at some position stays at that position. *)
Theorem registries_append_only :
  (forall (analyzer : OSAnalyzer W) g,
     osAnalyzers (RegisterOSAnalyzer analyzer g) = osAnalyzers g ++ [analyzer]
     /\ pkgAnalyzers (RegisterOSAnalyzer analyzer g) = pkgAnalyzers g
     /\ libAnalyzers (RegisterOSAnalyzer analyzer g) = libAnalyzers g)
  /\ (forall (analyzer : PkgAnalyzer W) g,
     osAnalyzers (RegisterPkgAnalyzer analyzer g) = osAnalyzers g
     /\ pkgAnalyzers (RegisterPkgAnalyzer analyzer g) = pkgAnalyzers g ++ [analyzer]
     /\ libAnalyzers (RegisterPkgAnalyzer analyzer g) = libAnalyzers g)
  /\ (forall (analyzer : LibraryAnalyzer W Library) g,
     osAnalyzers (RegisterLibraryAnalyzer analyzer g) = osAnalyzers g
     /\ pkgAnalyzers (RegisterLibraryAnalyzer analyzer g) = pkgAnalyzers g
     /\ libAnalyzers (RegisterLibraryAnalyzer analyzer g)
        = libAnalyzers g ++ [analyzer])
  /\ (forall (New : DockerOption -> M W (Extractor W Ctx ReadCloser))
        (cs : list (Call W Library Ctx ReadCloser)) g w,
     let g' := fst (exec_all New cs (g, w)) in
     (exists added, osAnalyzers g' = osAnalyzers g ++ added)
     /\ (exists added, pkgAnalyzers g' = pkgAnalyzers g ++ added)
     /\ (exists added, libAnalyzers g' = libAnalyzers g ++ added)
     /\ (forall i a, osAnalyzers g !! i = Some a -> osAnalyzers g' !! i = Some a)
     /\ (forall i a, pkgAnalyzers g !! i = Some a -> pkgAnalyzers g' !! i = Some a)
     /\ (forall i a, libAnalyzers g !! i = Some a -> libAnalyzers g' !! i = Some a)).
Proof.
  split; [by intros|]. split; [by intros|]. split; [by intros|].
  intros New cs g w g'.
  destruct (exec_all_extends New cs (g, w)) as (Ho & Hp & Hl).
  repeat match goal with |- _ /\ _ => split end;
    try assumption; intros i a; by apply extends_lookup.
Qed.

(** ** RequiredFilenames *)

Lemma bind_run {A B : Type} (m : M W A) (k : A -> M W B) w :
  bind m k w = let (a, w') := m w in k a w'.
Proof. reflexivity. Qed.

Lemma appendRequiredFiles_each {A : Type} `{!HasRequiredFiles (W:=W) A}
    (analyzers : list A) (filenames : list string) w :
  appendRequiredFiles analyzers filenames w
  = let (outs, w') := RequiredFiles_each analyzers w in
    (filenames ++ concat outs, w').
Proof.
  revert filenames w.
  induction analyzers as [|a rest IH]; intros filenames w; simpl.
  - unfold ret. by rewrite app_nil_r.
  - rewrite !bind_run. destruct (RequiredFiles a w) as [files w1].
    rewrite IH, bind_run. destruct (RequiredFiles_each rest w1) as [more w2].
    unfold ret. simpl. by rewrite app_assoc.
Qed.

Lemma occurrences_app (path : string) (l1 l2 : list string) :
  occurrences path (l1 ++ l2) = (occurrences path l1 + occurrences path l2)%nat.
Proof. unfold occurrences. by rewrite filter_app, length_app. Qed.

Lemma occurrences_concat (path : string) (ls : list (list string)) :
  occurrences path (concat ls) = sum_list (occurrences path <$> ls).
Proof.
  induction ls as [|l ls IH]; simpl; [done|].
  by rewrite occurrences_app, IH.
Qed.

(** C5. [RequiredFilenames] returns the outputs of [RequiredFiles] laid end
    to end: those of the OS analyzers, then of the package analyzers, then
    of the library analyzers, each list in registration order and each
    output in its own order.  Nothing is dropped: a path occurs in the
    result as often as it occurs in all the outputs together. *)
Theorem RequiredFilenames_concatenation g w :
  let '(os, w1) := RequiredFiles_each (osAnalyzers g) w in
  let '(pkg, w2) := RequiredFiles_each (pkgAnalyzers g) w1 in
  let '(lib, w3) := RequiredFiles_each (libAnalyzers g) w2 in
  RequiredFilenames g w = (concat os ++ concat pkg ++ concat lib, w3)
  /\ forall path,
       occurrences path (fst (RequiredFilenames g w))
       = sum_list (occurrences path <$> (os ++ pkg ++ lib)).
Proof.
  destruct (RequiredFiles_each (osAnalyzers g) w) as [os w1] eqn:Hos.
  destruct (RequiredFiles_each (pkgAnalyzers g) w1) as [pkg w2] eqn:Hpkg.
  destruct (RequiredFiles_each (libAnalyzers g) w2) as [lib w3] eqn:Hlib.
  assert (RequiredFilenames g w = (concat os ++ concat pkg ++ concat lib, w3))
    as Heq.
  { unfold RequiredFilenames. rewrite bind_run, appendRequiredFiles_each, Hos.
    rewrite bind_run, appendRequiredFiles_each, Hpkg.
    rewrite bind_run, appendRequiredFiles_each, Hlib.
    unfold ret. simpl. by rewrite <- app_assoc. }
  split; [exact Heq|].
  intros path. rewrite Heq. simpl.
  by rewrite <- !concat_app, occurrences_concat.
Qed.

(** ** The OS and package resolvers *)

(** Along a list either some analyzer is the first to succeed, or all of
    them error. *)
Lemma first_success_or_all_errored {A R : Type}
    (analyze : A -> FileMap -> M W (R * option error)) filesMap
    (analyzers : list A) w :
  (exists tried analyzer later r w1 w2,
      analyzers = tried ++ analyzer :: later
      /\ all_errored analyze filesMap tried w w1
      /\ analyze analyzer filesMap w1 = ((r, None), w2))
  \/ (exists w', all_errored analyze filesMap analyzers w w').
Proof.
  revert w. induction analyzers as [|a rest IH]; intros w.
  - right. exists w. constructor.
  - destruct (analyze a filesMap w) as [[r [e|]] w1] eqn:Ha.
    + destruct (IH w1) as [(tried & b & later & r' & w2 & w3 & -> & Ht & Hb)
                          |(w' & Hall)].
      * left. exists (a :: tried), b, later, r', w2, w3.
        split; [done|]. split; [|done]. by econstructor.
      * right. exists w'. by econstructor.
    + left. exists [], a, rest, r, w, w1.
      split; [done|]. split; [constructor|done].
Qed.

Lemma GetOS_range_skip (tried rest : list (OSAnalyzer W)) filesMap w w1 :
  all_errored OSAnalyzer_Analyze filesMap tried w w1 ->
  GetOS_range (tried ++ rest) filesMap w = GetOS_range rest filesMap w1.
Proof.
  induction 1 as [|a tried r e w w1 w2 Ha _ IH]; [done|].
  simpl. rewrite bind_run, Ha. exact IH.
Qed.

Lemma GetPackages_range_skip (tried rest : list (PkgAnalyzer W)) filesMap w w1 :
  all_errored PkgAnalyzer_Analyze filesMap tried w w1 ->
  GetPackages_range (tried ++ rest) filesMap w
  = GetPackages_range rest filesMap w1.
Proof.
  induction 1 as [|a tried r e w w1 w2 Ha _ IH]; [done|].
  simpl. rewrite bind_run, Ha. exact IH.
Qed.

(** C1. [GetOS] returns the result of the first OS analyzer, in
    registration order, whose [Analyze] returns no error, with a nil error:
    the errors of the analyzers tried before it are dropped.  When every
    registered analyzer errors, and so when none is registered, it fails
    with [ErrUnknownOS].  One of the two always applies. *)
Theorem GetOS_first_success g filesMap w :
  (forall tried analyzer later os w1 w2,
     osAnalyzers g = tried ++ analyzer :: later ->
     all_errored OSAnalyzer_Analyze filesMap tried w w1 ->
     OSAnalyzer_Analyze analyzer filesMap w1 = ((os, None), w2) ->
     GetOS g filesMap w = ((os, None), w2))
  /\ (forall w',
     all_errored OSAnalyzer_Analyze filesMap (osAnalyzers g) w w' ->
     GetOS g filesMap w = ((OS_zero, Some ErrUnknownOS), w'))
  /\ (osAnalyzers g = [] ->
     GetOS g filesMap w = ((OS_zero, Some ErrUnknownOS), w))
  /\ ((exists tried analyzer later os w1 w2,
         osAnalyzers g = tried ++ analyzer :: later
         /\ all_errored OSAnalyzer_Analyze filesMap tried w w1
         /\ OSAnalyzer_Analyze analyzer filesMap w1 = ((os, None), w2))
      \/ (exists w',
         all_errored OSAnalyzer_Analyze filesMap (osAnalyzers g) w w')).
Proof.
  unfold GetOS. repeat match goal with |- _ /\ _ => split end.
  - intros tried analyzer later os w1 w2 -> Htried Ha.
    rewrite (GetOS_range_skip _ _ _ _ _ Htried). simpl.
    by rewrite bind_run, Ha.
  - intros w' Hall.
    rewrite <- (app_nil_r (osAnalyzers g)).
    by rewrite (GetOS_range_skip _ _ _ _ _ Hall).
  - by intros ->.
  - apply first_success_or_all_errored.
Qed.

(** C2. [GetPackages] returns the package list of the first package
    analyzer, in registration order, whose [Analyze] returns no error, with
    a nil error.  When every registered analyzer errors, and so when none is
    registered, it fails with [ErrUnknownOS], the very error of [GetOS],
    which is not [ErrPkgAnalysis]. *)
Theorem GetPackages_first_success g filesMap w :
  (forall tried analyzer later pkgs w1 w2,
     pkgAnalyzers g = tried ++ analyzer :: later ->
     all_errored PkgAnalyzer_Analyze filesMap tried w w1 ->
     PkgAnalyzer_Analyze analyzer filesMap w1 = ((pkgs, None), w2) ->
     GetPackages g filesMap w = ((pkgs, None), w2))
  /\ (forall w',
     all_errored PkgAnalyzer_Analyze filesMap (pkgAnalyzers g) w w' ->
     GetPackages g filesMap w = (([], Some ErrUnknownOS), w'))
  /\ (pkgAnalyzers g = [] ->
     GetPackages g filesMap w = (([], Some ErrUnknownOS), w))
  /\ ((exists tried analyzer later pkgs w1 w2,
         pkgAnalyzers g = tried ++ analyzer :: later
         /\ all_errored PkgAnalyzer_Analyze filesMap tried w w1
         /\ PkgAnalyzer_Analyze analyzer filesMap w1 = ((pkgs, None), w2))
      \/ (exists w',
         all_errored PkgAnalyzer_Analyze filesMap (pkgAnalyzers g) w w'))
  /\ (forall w' w'',
     all_errored PkgAnalyzer_Analyze filesMap (pkgAnalyzers g) w w' ->
     all_errored OSAnalyzer_Analyze filesMap (osAnalyzers g) w w'' ->
     snd (fst (GetPackages g filesMap w)) = snd (fst (GetOS g filesMap w)))
  /\ ErrUnknownOS <> ErrPkgAnalysis.
Proof.
  unfold GetPackages. repeat match goal with |- _ /\ _ => split end.
  - intros tried analyzer later pkgs w1 w2 -> Htried Ha.
    rewrite (GetPackages_range_skip _ _ _ _ _ Htried). simpl.
    by rewrite bind_run, Ha.
  - intros w' Hall.
    rewrite <- (app_nil_r (pkgAnalyzers g)).
    by rewrite (GetPackages_range_skip _ _ _ _ _ Hall).
  - by intros ->.
  - apply first_success_or_all_errored.
  - intros w' w'' Hp Ho. unfold GetOS.
    rewrite <- (app_nil_r (pkgAnalyzers g)), <- (app_nil_r (osAnalyzers g)).
    by rewrite (GetPackages_range_skip _ _ _ _ _ Hp),
      (GetOS_range_skip _ _ _ _ _ Ho).
  - discriminate.
Qed.

(** ** The library resolver *)

Implicit Types (results : gmap FilePath (list Library)).

(** Assigning a sequence of entries one after the other builds the map of
    the sequence read backwards, laid over the previous contents. *)
Lemma assignEntries_list_to_map
    (entries : list (FilePath * list Library)) results :
  assignEntries entries results = list_to_map (reverse entries) ∪ results.
Proof.
  revert results.
  induction entries as [|[filePath libs] rest IH]; intros results; simpl.
  - by rewrite (left_id_L ∅ (∪)).
  - rewrite IH, reverse_cons, list_to_map_app. simpl.
    rewrite <- (assoc_L (∪)). f_equal.
    by rewrite <- insert_union_l, (left_id_L ∅ (∪)).
Qed.

(** So the order in which the entries of one map are visited is immaterial. *)
Lemma assignEntries_range (ord : RangeOrder Library) (i : nat)
    (libMap : LibMap Library) results :
  range_lawful ord ->
  assignEntries (range ord i libMap) results = entries libMap ∪ results.
Proof.
  intros Hord. rewrite assignEntries_list_to_map.
  destruct libMap as [m|]; simpl; [|done].
  f_equal. rewrite <- (list_to_map_to_list m) at 2.
  assert (reverse (ord i m) ≡ₚ map_to_list m) as Hperm.
  { by rewrite reverse_Permutation. }
  apply list_to_map_proper; [|done].
  rewrite Hperm. apply NoDup_fst_map_to_list.
Qed.

Lemma GetLibraries_range_ran (ord : RangeOrder Library) (i : nat)
    (ran rest : list (LibraryAnalyzer W Library)) filesMap
    (libMaps : list (LibMap Library)) results w w1 :
  all_succeeded filesMap ran w libMaps w1 ->
  exists results',
    GetLibraries_range ord i (ran ++ rest) filesMap results w
    = GetLibraries_range ord (i + length ran) rest filesMap results' w1.
Proof.
  intros Hran. revert i results.
  induction Hran as [w|a ran libMap libMaps w w1 w2 Ha _ IH]; intros i results.
  - exists results. simpl. by rewrite Nat.add_0_r.
  - destruct (IH (S i) (assignEntries (range ord i libMap) results))
      as [results' Hres].
    exists results'. simpl. rewrite bind_run, Ha, Hres.
    by rewrite Nat.add_succ_r.
Qed.

Lemma GetLibraries_range_merge (ord : RangeOrder Library) (i : nat)
    (ran rest : list (LibraryAnalyzer W Library)) filesMap
    (libMaps : list (LibMap Library)) results w w1 :
  range_lawful ord ->
  all_succeeded filesMap ran w libMaps w1 ->
  GetLibraries_range ord i (ran ++ rest) filesMap results w
  = GetLibraries_range ord (i + length ran) rest filesMap
      (fold_left (fun results libMap => entries libMap ∪ results)
         libMaps results) w1.
Proof.
  intros Hord Hran. revert i results.
  induction Hran as [w|a ran libMap libMaps w w1 w2 Ha _ IH]; intros i results.
  - simpl. by rewrite Nat.add_0_r.
  - simpl. rewrite bind_run, Ha, IH, assignEntries_range by done.
    by rewrite Nat.add_succ_r.
Qed.

(** C3. When a library analyzer returns an error, the analyzers before it
    having succeeded, [GetLibraries] returns the nil map together with that
    error wrapped by "failed to analyze libraries": nothing of what the
    earlier analyzers returned comes back.  It stops in the world the
    failing analyzer left, and answers as if the analyzers registered after
    the failing one were not registered at all. *)
Theorem GetLibraries_fails_at_first_error (ord : RangeOrder Library)
    g filesMap w ran failing later libMaps libMap e w1 w2 :
  libAnalyzers g = ran ++ failing :: later ->
  all_succeeded filesMap ran w libMaps w1 ->
  LibraryAnalyzer_Analyze failing filesMap w1 = ((libMap, Some e), w2) ->
  GetLibraries ord g filesMap w
  = ((None, Some (xerrors_Errorf "failed to analyze libraries: %w" e)), w2)
  /\ GetLibraries ord g filesMap w
     = GetLibraries ord
         {| osAnalyzers := osAnalyzers g;
            pkgAnalyzers := pkgAnalyzers g;
            libAnalyzers := ran ++ [failing] |} filesMap w.
Proof.
  intros Hg Hran Hfail. unfold GetLibraries. simpl. rewrite Hg.
  destruct (GetLibraries_range_ran ord 0 ran (failing :: later) filesMap
              libMaps ∅ w w1 Hran) as [r1 ->].
  destruct (GetLibraries_range_ran ord 0 ran [failing] filesMap
              libMaps ∅ w w1 Hran) as [r2 ->].
  simpl. by rewrite !bind_run, Hfail.
Qed.

Lemma merge_fold_absent (later : list (LibMap Library)) results
    (path : FilePath) :
  (forall libMap, libMap ∈ later -> entries libMap !! path = None) ->
  fold_left (fun results libMap => entries libMap ∪ results) later results
    !! path = results !! path.
Proof.
  revert results. induction later as [|m later IH]; intros results Hno; [done|].
  simpl. rewrite IH.
  - apply lookup_union_r, Hno. by left.
  - intros libMap Hin. apply Hno. by right.
Qed.

Lemma merge_in_order_last (earlier later : list (LibMap Library))
    (libMap : LibMap Library) (path : FilePath) (libs : list Library) :
  entries libMap !! path = Some libs ->
  (forall m, m ∈ later -> entries m !! path = None) ->
  merge_in_order (earlier ++ libMap :: later) !! path = Some libs.
Proof.
  intros Hin Hno. unfold merge_in_order.
  rewrite fold_left_app. simpl. rewrite merge_fold_absent by done.
  by apply lookup_union_Some_l.
Qed.

(** C4. When every registered library analyzer succeeds, [GetLibraries]
    returns, with a nil error, the fold of their maps in registration
    order.  For a path, the list it maps to is the whole list of the last
    analyzer that returned that path, and a path no analyzer returned is
    absent.  With A returning "/a" -> [lib1] and B returning "/a" -> [lib2],
    registered in that order, "/a" maps to [lib2]. *)
Theorem GetLibraries_merges_in_order (ord : RangeOrder Library)
    g filesMap w (libMaps : list (LibMap Library)) w' :
  range_lawful ord ->
  all_succeeded filesMap (libAnalyzers g) w libMaps w' ->
  GetLibraries ord g filesMap w = ((Some (merge_in_order libMaps), None), w')
  /\ (forall earlier libMap later path libs,
        libMaps = earlier ++ libMap :: later ->
        entries libMap !! path = Some libs ->
        (forall m, m ∈ later -> entries m !! path = None) ->
        merge_in_order libMaps !! path = Some libs)
  /\ (forall path,
        (forall m, m ∈ libMaps -> entries m !! path = None) ->
        merge_in_order libMaps !! path = None)
  /\ (forall lib1 lib2 : Library,
        libMaps = [Some {["/a"%string := [lib1]]}; Some {["/a"%string := [lib2]]}] ->
        GetLibraries ord g filesMap w
        = ((Some {["/a"%string := [lib2]]}, None), w')).
Proof.
  intros Hord Hall.
  assert (GetLibraries ord g filesMap w
          = ((Some (merge_in_order libMaps), None), w')) as Heq.
  { unfold GetLibraries, merge_in_order.
    rewrite <- (app_nil_r (libAnalyzers g)).
    by rewrite (GetLibraries_range_merge ord 0 _ [] _ _ _ _ _ Hord Hall). }
  split; [exact Heq|]. split; [|split].
  - intros earlier libMap later path libs ->. apply merge_in_order_last.
  - intros path Hno. unfold merge_in_order.
    by rewrite merge_fold_absent.
  - intros lib1 lib2 ->. rewrite Heq. reflexivity.
Qed.

(** Along a list of library analyzers either all succeed or one is the
    first to error, so C3 and C4 between them cover every call. *)
Lemma all_succeeded_or_first_error
    (analyzers : list (LibraryAnalyzer W Library)) filesMap w :
  (exists libMaps w', all_succeeded filesMap analyzers w libMaps w')
  \/ (exists ran failing later libMaps libMap e w1 w2,
        analyzers = ran ++ failing :: later
        /\ all_succeeded filesMap ran w libMaps w1
        /\ LibraryAnalyzer_Analyze failing filesMap w1
           = ((libMap, Some e), w2)).
Proof.
  revert w. induction analyzers as [|a rest IH]; intros w.
  - left. exists [], w. constructor.
  - destruct (LibraryAnalyzer_Analyze a filesMap w) as [[m [e|]] w1] eqn:Ha.
    + right. exists [], a, rest, [], m, e, w, w1.
      split; [done|]. split; [constructor|done].
    + destruct (IH w1) as [(ms & w' & Hall)
                          |(ran & b & later & ms & m' & e & w2 & w3
                            & -> & Hran & Hb)].
      * left. exists (m :: ms), w'. by econstructor.
      * right. exists (a :: ran), b, later, (m :: ms), m', e, w2, w3.
        split; [done|]. split; [|done]. by econstructor.
Qed.

Lemma GetLibraries_range_deterministic (ord1 ord2 : RangeOrder Library)
    (analyzers : list (LibraryAnalyzer W Library)) filesMap :
  range_lawful ord1 -> range_lawful ord2 ->
  (forall a, a ∈ analyzers -> deterministic a) ->
  forall i1 i2 results w1 w2,
    fst (GetLibraries_range ord1 i1 analyzers filesMap results w1)
    = fst (GetLibraries_range ord2 i2 analyzers filesMap results w2).
Proof.
  intros Hord1 Hord2.
  induction analyzers as [|a rest IH]; intros Hdet i1 i2 results w1 w2; [done|].
  simpl. rewrite !bind_run.
  assert (deterministic a) as Ha by (apply Hdet; by left).
  specialize (Ha filesMap w1 w2).
  destruct (LibraryAnalyzer_Analyze a filesMap w1) as [[m1 e1] w1'].
  destruct (LibraryAnalyzer_Analyze a filesMap w2) as [[m2 e2] w2'].
  simpl in Ha. injection Ha as -> ->.
  destruct e2 as [e|]; [done|].
  rewrite !assignEntries_range by done.
  apply IH. intros b Hb. apply Hdet. by right.
Qed.

(** C10. With deterministic library analyzers, two calls of [GetLibraries]
    on the same file map return the same map and the same error, whatever
    the order in which each call visits the entries of the maps returned to
    it and whatever world each call starts in.  With no library analyzer
    registered the result is the empty map, not the nil map, and no error. *)
Theorem GetLibraries_deterministic (ord1 ord2 : RangeOrder Library)
    g filesMap w1 w2 :
  range_lawful ord1 -> range_lawful ord2 ->
  (forall a, a ∈ libAnalyzers g -> deterministic a) ->
  fst (GetLibraries ord1 g filesMap w1) = fst (GetLibraries ord2 g filesMap w2)
  /\ (libAnalyzers g = [] ->
      GetLibraries ord1 g filesMap w1 = ((Some ∅, None), w1)).
Proof.
  intros Hord1 Hord2 Hdet. split.
  - by apply GetLibraries_range_deterministic.
  - unfold GetLibraries. by intros ->.
Qed.

(** ** The extraction entry points *)

(** C7. Both entry points hand back what the extractor answered: when the
    extractor returns an error, the nil file map and that error wrapped with
    "Failed to extract files"; otherwise the extractor's file map as it is
    and a nil error. *)
Theorem extraction_result
    (New : DockerOption -> M W (Extractor W Ctx ReadCloser)) g (ctx : Ctx) :
  (forall imageName w e w1 filenames w2 filesMap err w3,
     New {| Timeout := 600 * time_Second |} w = (e, w1) ->
     RequiredFilenames g w1 = (filenames, w2) ->
     Extract e ctx imageName filenames w2 = ((filesMap, err), w3) ->
     Analyze New g ctx imageName w
     = (match err with
        | Some err => (None, Some (errors_Wrap err "Failed to extract files"))
        | None => (filesMap, None)
        end, w3))
  /\ (forall r w e w1 filenames w2 filesMap err w3,
     New DockerOption_zero w = (e, w1) ->
     RequiredFilenames g w1 = (filenames, w2) ->
     ExtractFromFile e ctx r filenames w2 = ((filesMap, err), w3) ->
     AnalyzeFromFile New g ctx r w
     = (match err with
        | Some err => (None, Some (errors_Wrap err "Failed to extract files"))
        | None => (filesMap, None)
        end, w3)).
Proof.
  split.
  - intros imageName w e w1 filenames w2 filesMap err w3 HNew Hreq Hext.
    unfold Analyze. rewrite bind_run, HNew, bind_run, Hreq, bind_run, Hext.
    by destruct err.
  - intros r w e w1 filenames w2 filesMap err w3 HNew Hreq Hext.
    unfold AnalyzeFromFile.
    rewrite bind_run, HNew, bind_run, Hreq, bind_run, Hext.
    by destruct err.
Qed.

(** C8. [Analyze] asks for an extractor with the timeout set to 600
    seconds and for no other, [AnalyzeFromFile] for one with the zero
    option, whose timeout is 0.  Against an extractor that logs its calls,
    each entry point makes exactly one extraction call, after computing
    [RequiredFilenames], and passes it the list so computed. *)
Theorem extractor_invocation :
  (forall (New New' : DockerOption -> M W (Extractor W Ctx ReadCloser))
      g (ctx : Ctx) imageName,
     New {| Timeout := 600 * time_Second |}
     = New' {| Timeout := 600 * time_Second |} ->
     Analyze New g ctx imageName = Analyze New' g ctx imageName)
  /\ (forall (New New' : DockerOption -> M W (Extractor W Ctx ReadCloser))
      g (ctx : Ctx) (r : ReadCloser),
     New DockerOption_zero = New' DockerOption_zero ->
     AnalyzeFromFile New g ctx r = AnalyzeFromFile New' g ctx r)
  /\ (forall (gr : Registry (list (Event Ctx ReadCloser)) Library)
      (result : FileMap * option error) (ctx : Ctx) imageName
      (r : ReadCloser) (log : list (Event Ctx ReadCloser)),
     let (filenames, log1) := RequiredFilenames gr log in
     snd (Analyze (recorder result) gr ctx imageName log)
     = log1 ++ [Extracted {| Timeout := 600 * time_Second |}
                  ctx imageName filenames]
     /\ snd (AnalyzeFromFile (recorder result) gr ctx r log)
        = log1 ++ [ExtractedFromFile DockerOption_zero ctx r filenames])
  /\ 600 * time_Second = 600000000000
  /\ 600 * time_Second <= int64_max
  /\ Timeout DockerOption_zero = 0.
Proof.
  split; [|split; [|split]].
  - intros New New' g ctx imageName H. unfold Analyze. by rewrite H.
  - intros New New' g ctx r H. unfold AnalyzeFromFile. by rewrite H.
  - intros gr [filesMap err] ctx imageName r log.
    destruct (RequiredFilenames gr log) as [filenames log1] eqn:Hreq.
    unfold Analyze, AnalyzeFromFile, recorder, bind, ret.
    rewrite Hreq. unfold record. simpl.
    by destruct err.
  - by repeat split.
Qed.

(** ** Further properties of the resolvers *)

Lemma GetOS_range_app (l l' : list (OSAnalyzer W)) filesMap w :
  GetOS_range (l ++ l') filesMap w
  = let '((os, err), w') := GetOS_range l filesMap w in
    match err with
    | None => ((os, None), w')
    | Some _ => GetOS_range l' filesMap w'
    end.
Proof.
  revert w. induction l as [|a l IH]; intros w; simpl; [done|].
  rewrite !bind_run.
  destruct (OSAnalyzer_Analyze a filesMap w) as [[os [e|]] w1]; [apply IH|done].
Qed.

Lemma GetPackages_range_app (l l' : list (PkgAnalyzer W)) filesMap w :
  GetPackages_range (l ++ l') filesMap w
  = let '((pkgs, err), w') := GetPackages_range l filesMap w in
    match err with
    | None => ((pkgs, None), w')
    | Some _ => GetPackages_range l' filesMap w'
    end.
Proof.
  revert w. induction l as [|a l IH]; intros w; simpl; [done|].
  rewrite !bind_run.
  destruct (PkgAnalyzer_Analyze a filesMap w) as [[pkgs [e|]] w1];
    [apply IH|done].
Qed.

(** X1. What [GetOS] returns is either some OS with a nil error, or the
    zero OS with [ErrUnknownOS]: an error returned by an analyzer never
    reaches the caller, and no OS comes back beside an error. *)
Theorem GetOS_result_shape g filesMap w :
  (exists os, fst (GetOS g filesMap w) = (os, None))
  \/ fst (GetOS g filesMap w) = (OS_zero, Some ErrUnknownOS).
Proof.
  unfold GetOS. generalize (osAnalyzers g) as l. intros l. revert w.
  induction l as [|a l IH]; intros w; simpl.
  - by right.
  - rewrite bind_run.
    destruct (OSAnalyzer_Analyze a filesMap w) as [[os [e|]] w1]; [apply IH|].
    left. by exists os.
Qed.

(** X2. What [GetPackages] returns is either some package list with a nil
    error, or no package with [ErrUnknownOS]: an error returned by an
    analyzer never reaches the caller. *)
Theorem GetPackages_result_shape g filesMap w :
  (exists pkgs, fst (GetPackages g filesMap w) = (pkgs, None))
  \/ fst (GetPackages g filesMap w) = ([], Some ErrUnknownOS).
Proof.
  unfold GetPackages. generalize (pkgAnalyzers g) as l. intros l. revert w.
  induction l as [|a l IH]; intros w; simpl.
  - by right.
  - rewrite bind_run.
    destruct (PkgAnalyzer_Analyze a filesMap w) as [[pkgs [e|]] w1];
      [apply IH|].
    left. by exists pkgs.
Qed.

(** X4. Registering one more OS analyzer never changes an identification
    that succeeded: [GetOS] then returns the same OS and stops in the same
    world.  Where [GetOS] failed, it now answers as a registry holding the
    new analyzer alone would, started in the world the failed call left. *)
Theorem GetOS_after_registration g filesMap w (analyzer : OSAnalyzer W) :
  let '((os, err), w') := GetOS g filesMap w in
  GetOS (RegisterOSAnalyzer analyzer g) filesMap w
  = match err with
    | None => ((os, None), w')
    | Some _ =>
        GetOS (RegisterOSAnalyzer analyzer (Registry_init (Library:=Library)))
          filesMap w'
    end.
Proof.
  unfold GetOS. simpl. rewrite GetOS_range_app.
  by destruct (GetOS_range (osAnalyzers g) filesMap w) as [[os [e|]] w'].
Qed.

(** X5. Registering one more package analyzer never changes an enumeration
    that succeeded.  Where [GetPackages] failed, it now answers as a
    registry holding the new analyzer alone would, started in the world the
    failed call left. *)
Theorem GetPackages_after_registration g filesMap w (analyzer : PkgAnalyzer W) :
  let '((pkgs, err), w') := GetPackages g filesMap w in
  GetPackages (RegisterPkgAnalyzer analyzer g) filesMap w
  = match err with
    | None => ((pkgs, None), w')
    | Some _ =>
        GetPackages
          (RegisterPkgAnalyzer analyzer (Registry_init (Library:=Library)))
          filesMap w'
    end.
Proof.
  unfold GetPackages. simpl. rewrite GetPackages_range_app.
  by destruct (GetPackages_range (pkgAnalyzers g) filesMap w)
    as [[pkgs [e|]] w'].
Qed.

Lemma GetLibraries_range_app (ord : RangeOrder Library) (i : nat)
    (l l' : list (LibraryAnalyzer W Library)) filesMap results w :
  GetLibraries_range ord i (l ++ l') filesMap results w
  = let '((libMap, err), w') := GetLibraries_range ord i l filesMap results w in
    match libMap, err with
    | Some results', None =>
        GetLibraries_range ord (i + length l) l' filesMap results' w'
    | _, _ => ((libMap, err), w')
    end.
Proof.
  revert i results w.
  induction l as [|a l IH]; intros i results w; simpl.
  - by rewrite Nat.add_0_r.
  - rewrite !bind_run.
    destruct (LibraryAnalyzer_Analyze a filesMap w) as [[m [e|]] w1]; [done|].
    by rewrite IH, Nat.add_succ_r.
Qed.

Lemma GetLibraries_range_shape (ord : RangeOrder Library) (i : nat)
    (l : list (LibraryAnalyzer W Library)) filesMap results w :
  (exists results',
      fst (GetLibraries_range ord i l filesMap results w)
      = (Some results', None))
  \/ (exists analyzer libMap e w1,
        analyzer ∈ l
        /\ LibraryAnalyzer_Analyze analyzer filesMap w1
           = ((libMap, Some e),
              snd (GetLibraries_range ord i l filesMap results w))
        /\ fst (GetLibraries_range ord i l filesMap results w)
           = (None, Some (xerrors_Errorf "failed to analyze libraries: %w" e))).
Proof.
  revert i results w.
  induction l as [|a l IH]; intros i results w; simpl.
  - left. by exists results.
  - rewrite bind_run.
    destruct (LibraryAnalyzer_Analyze a filesMap w) as [[m [e|]] w1] eqn:Ha.
    + right. exists a, m, e, w. split; [by left|]. by rewrite Ha.
    + destruct (IH (S i) (assignEntries (range ord i m) results) w1)
        as [Hok|(b & m' & e & w2 & Hin & Hb & Hres)]; [by left|].
      right. exists b, m', e, w2. split; [by right|done].
Qed.

(** X3. What [GetLibraries] returns is either a map (not nil) with a nil
    error, or the nil map with an error: never both, never neither.  The
    error, when there is one, wraps an error that a registered library
    analyzer returned, and the call stopped in the world that analyzer
    left. *)
Theorem GetLibraries_result_shape (ord : RangeOrder Library) g filesMap w :
  (exists results, fst (GetLibraries ord g filesMap w) = (Some results, None))
  \/ (exists analyzer libMap e w1,
        analyzer ∈ libAnalyzers g
        /\ LibraryAnalyzer_Analyze analyzer filesMap w1
           = ((libMap, Some e), snd (GetLibraries ord g filesMap w))
        /\ fst (GetLibraries ord g filesMap w)
           = (None, Some (xerrors_Errorf "failed to analyze libraries: %w" e))).
Proof. apply GetLibraries_range_shape. Qed.

(** X6. Registering one more library analyzer never changes a failure: the
    new analyzer is not run.  Where [GetLibraries] succeeded, the new
    analyzer is run in the world that call left; its error fails the whole
    call, and its map otherwise is laid over the earlier result, path by
    path. *)
Theorem GetLibraries_after_registration (ord : RangeOrder Library)
    g filesMap w (analyzer : LibraryAnalyzer W Library) :
  range_lawful ord ->
  let '((libMap, err), w') := GetLibraries ord g filesMap w in
  GetLibraries ord (RegisterLibraryAnalyzer analyzer g) filesMap w
  = match libMap, err with
    | Some results, None =>
        let '((new, err'), w'') :=
          LibraryAnalyzer_Analyze analyzer filesMap w' in
        match err' with
        | Some e =>
            ((None,
              Some (xerrors_Errorf "failed to analyze libraries: %w" e)), w'')
        | None => ((Some (entries new ∪ results), None), w'')
        end
    | _, _ => ((libMap, err), w')
    end.
Proof.
  intros Hord. unfold GetLibraries. simpl. rewrite GetLibraries_range_app.
  destruct (GetLibraries_range ord 0 (libAnalyzers g) filesMap ∅ w)
    as [[[results|] [e|]] w']; try done.
  simpl. rewrite bind_run.
  destruct (LibraryAnalyzer_Analyze analyzer filesMap w') as [[new [e|]] w''];
    [done|].
  unfold ret. by rewrite assignEntries_range.
Qed.

Lemma merge_fold_provenance (libMaps : list (LibMap Library)) results
    (path : FilePath) (libs : list Library) :
  fold_left (fun results libMap => entries libMap ∪ results) libMaps results
    !! path = Some libs ->
  results !! path = Some libs
  \/ exists m, m ∈ libMaps /\ entries m !! path = Some libs.
Proof.
  revert results. induction libMaps as [|m ms IH]; intros results; simpl.
  - by left.
  - intros H. destruct (IH _ H) as [Hu|(m' & Hin & Hm')].
    + apply lookup_union_Some_raw in Hu as [Hm|[_ Hr]]; [|by left].
      right. exists m. split; [by left|done].
    + right. exists m'. split; [by right|done].
Qed.

Lemma merge_fold_present (libMaps : list (LibMap Library)) results
    (path : FilePath) :
  is_Some (fold_left (fun results libMap => entries libMap ∪ results)
             libMaps results !! path)
  <-> is_Some (results !! path)
      \/ exists m, m ∈ libMaps /\ is_Some (entries m !! path).
Proof.
  revert results. induction libMaps as [|m ms IH]; intros results; simpl.
  - split; [by left|]. intros [H|(m & Hin & _)]; [done|].
    by apply elem_of_nil in Hin.
  - rewrite IH, lookup_union_is_Some. split.
    + intros [[Hm|Hr]|(m' & Hin & Hm')].
      * right. exists m. split; [by left|done].
      * by left.
      * right. exists m'. split; [by right|done].
    + intros [Hr|(m' & Hin & Hm')]; [left; by right|].
      apply elem_of_cons in Hin as [->|Hin]; [left; by left|].
      right. by exists m'.
Qed.

(** X10. When every registered library analyzer succeeds, the map that
    [GetLibraries] returns holds exactly the paths the analyzers returned,
    and the list under a path is, unchanged, the list some analyzer
    returned for that path: nothing is lost and nothing is made up. *)
Theorem GetLibraries_entries_come_from_analyzers (ord : RangeOrder Library)
    g filesMap w (libMaps : list (LibMap Library)) w' :
  range_lawful ord ->
  all_succeeded filesMap (libAnalyzers g) w libMaps w' ->
  exists results,
    GetLibraries ord g filesMap w = ((Some results, None), w')
    /\ (forall path libs,
          results !! path = Some libs ->
          exists m, m ∈ libMaps /\ entries m !! path = Some libs)
    /\ (forall path,
          is_Some (results !! path)
          <-> exists m, m ∈ libMaps /\ is_Some (entries m !! path)).
Proof.
  intros Hord Hall.
  exists (fold_left (fun results libMap => entries libMap ∪ results) libMaps ∅).
  split; [|split].
  - unfold GetLibraries. rewrite <- (app_nil_r (libAnalyzers g)).
    by rewrite (GetLibraries_range_merge ord 0 _ [] _ _ _ _ _ Hord Hall).
  - intros path libs H.
    destruct (merge_fold_provenance _ _ _ _ H) as [He|Hm]; [|done].
    by rewrite lookup_empty in He.
  - intros path. rewrite merge_fold_present, lookup_empty. split.
    + intros [H|H]; [by destruct H|done].
    + intros H. by right.
Qed.

Lemma GetLibraries_range_out (ord : RangeOrder Library) (i : nat)
    (l : list (LibraryAnalyzer W Library)) filesMap results w
    (out : LibraryAnalyzer W Library -> LibMap Library) :
  range_lawful ord ->
  (forall a w, a ∈ l ->
     fst (LibraryAnalyzer_Analyze a filesMap w) = (out a, None)) ->
  fst (GetLibraries_range ord i l filesMap results w)
  = (Some (fold_left (fun results libMap => entries libMap ∪ results)
             (out <$> l) results), None).
Proof.
  intros Hord. revert i results w.
  induction l as [|a l IH]; intros i results w Hout; simpl; [done|].
  rewrite bind_run.
  assert (fst (LibraryAnalyzer_Analyze a filesMap w) = (out a, None)) as Ha.
  { apply Hout. by left. }
  destruct (LibraryAnalyzer_Analyze a filesMap w) as [[m e] w1].
  simpl in Ha. injection Ha as -> ->.
  rewrite IH, assignEntries_range; [done..|].
  intros b w2 Hb. apply Hout. by right.
Qed.

Lemma merge_fold_agreeing (libMaps : list (LibMap Library))
    (path : FilePath) (libs : list Library) :
  (forall m1 m2, m1 ∈ libMaps -> m2 ∈ libMaps -> agree m1 m2) ->
  fold_left (fun results libMap => entries libMap ∪ results) libMaps ∅
    !! path = Some libs
  <-> exists m, m ∈ libMaps /\ entries m !! path = Some libs.
Proof.
  intros Hagree. split.
  - intros H. destruct (merge_fold_provenance _ _ _ _ H) as [He|Hm]; [|done].
    by rewrite lookup_empty in He.
  - intros (m & Hin & Hm).
    assert (is_Some (fold_left
              (fun results libMap => entries libMap ∪ results) libMaps ∅
              !! path)) as [libs' Hlibs'].
    { apply merge_fold_present. right. exists m. by rewrite Hm. }
    rewrite Hlibs'. f_equal.
    destruct (merge_fold_provenance _ _ _ _ Hlibs') as [He|(m' & Hin' & Hm')].
    + by rewrite lookup_empty in He.
    + exact (Hagree m' m Hin' Hin path libs' libs Hm' Hm).
Qed.

(** X11. The order of registration of the library analyzers matters only
    where they collide.  Take analyzers that always succeed with an answer
    that depends on nothing but the analyzer, any two of which agree on the
    paths both return.  Then two registries that hold the same analyzers,
    in any order and any number of times each, make [GetLibraries] return
    the same map. *)
Theorem GetLibraries_order_irrelevant_without_collisions
    (ord ord' : RangeOrder Library) (g g' : Registry W Library) filesMap
    (w w' : W) (out : LibraryAnalyzer W Library -> LibMap Library) :
  range_lawful ord -> range_lawful ord' ->
  (forall a, a ∈ libAnalyzers g <-> a ∈ libAnalyzers g') ->
  (forall a w, a ∈ libAnalyzers g ->
     fst (LibraryAnalyzer_Analyze a filesMap w) = (out a, None)) ->
  (forall a b, a ∈ libAnalyzers g -> b ∈ libAnalyzers g ->
     agree (out a) (out b)) ->
  fst (GetLibraries ord g filesMap w) = fst (GetLibraries ord' g' filesMap w').
Proof.
  intros Hord Hord' Hsame Hout Hagree. unfold GetLibraries.
  rewrite (GetLibraries_range_out ord 0 _ _ _ _ out Hord Hout).
  rewrite (GetLibraries_range_out ord' 0 _ _ _ _ out Hord').
  2:{ intros a w0 Ha. apply Hout. by apply Hsame. }
  do 2 f_equal. apply map_eq. intros path. apply option_eq. intros libs.
  rewrite !merge_fold_agreeing.
  - split; intros (m & Hin & Hm); exists m; (split; [|done]);
      apply list_elem_of_fmap in Hin as (a & -> & Ha);
      apply list_elem_of_fmap; exists a; (split; [done|]); by apply Hsame.
  - intros m1 m2 (a & -> & Ha)%list_elem_of_fmap (b & -> & Hb)%list_elem_of_fmap.
    apply Hagree; by apply Hsame.
  - intros m1 m2 (a & -> & Ha)%list_elem_of_fmap (b & -> & Hb)%list_elem_of_fmap.
    by apply Hagree.
Qed.

(** ** Further properties of the registries *)

Lemma exec_registers (New : DockerOption -> M W (Extractor W Ctx ReadCloser))
    (c : Call W Library Ctx ReadCloser) (s : Registry W Library * W) :
  osAnalyzers (fst (exec New c s))
  = osAnalyzers (fst s) ++ omap registered_os [c]
  /\ pkgAnalyzers (fst (exec New c s))
     = pkgAnalyzers (fst s) ++ omap registered_pkg [c]
  /\ libAnalyzers (fst (exec New c s))
     = libAnalyzers (fst s) ++ omap registered_lib [c].
Proof. destruct s as [g w], c; simpl; by rewrite ?app_nil_r. Qed.

Lemma fold_exec_registers
    (New : DockerOption -> M W (Extractor W Ctx ReadCloser))
    (cs : list (Call W Library Ctx ReadCloser)) (s : Registry W Library * W) :
  osAnalyzers (fst (fold_left (fun s c => exec New c s) cs s))
  = osAnalyzers (fst s) ++ omap registered_os cs
  /\ pkgAnalyzers (fst (fold_left (fun s c => exec New c s) cs s))
     = pkgAnalyzers (fst s) ++ omap registered_pkg cs
  /\ libAnalyzers (fst (fold_left (fun s c => exec New c s) cs s))
     = libAnalyzers (fst s) ++ omap registered_lib cs.
Proof.
  revert s. induction cs as [|c cs IH]; intros s.
  - simpl. by rewrite !app_nil_r.
  - simpl fold_left.
    destruct (IH (exec New c s)) as (Ho & Hp & Hl). rewrite Ho, Hp, Hl.
    destruct (exec_registers New c s) as (Ho' & Hp' & Hl').
    rewrite Ho', Hp', Hl'.
    by rewrite <- !app_assoc, <- !omap_app.
Qed.

(** X7. After any sequence of calls of the package's functions, each
    registry holds what it held before followed by the analyzers the
    registration calls of its kind passed, one entry per call and in the
    order of the calls: nothing is dropped, merged or reordered, and an
    analyzer registered twice is held twice. *)
Theorem exec_all_registers_in_call_order
    (New : DockerOption -> M W (Extractor W Ctx ReadCloser))
    (cs : list (Call W Library Ctx ReadCloser)) g w :
  osAnalyzers (fst (exec_all New cs (g, w)))
  = osAnalyzers g ++ omap registered_os cs
  /\ pkgAnalyzers (fst (exec_all New cs (g, w)))
     = pkgAnalyzers g ++ omap registered_pkg cs
  /\ libAnalyzers (fst (exec_all New cs (g, w)))
     = libAnalyzers g ++ omap registered_lib cs.
Proof. apply (fold_exec_registers New cs (g, w)). Qed.

(** ** Further properties of RequiredFilenames *)

Lemma appendRequiredFiles_app {A : Type} `{!HasRequiredFiles (W:=W) A}
    (l l' : list A) (filenames : list string) w :
  appendRequiredFiles (l ++ l') filenames w
  = let (filenames', w') := appendRequiredFiles l filenames w in
    appendRequiredFiles l' filenames' w'.
Proof.
  revert filenames w.
  induction l as [|a l IH]; intros filenames w; simpl; [done|].
  rewrite !bind_run. destruct (RequiredFiles a w) as [files w1]. apply IH.
Qed.

Lemma RequiredFiles_each_snoc {A : Type} `{!HasRequiredFiles (W:=W) A}
    (l : list A) (a : A) w :
  RequiredFiles_each (l ++ [a]) w
  = let (outs, w1) := RequiredFiles_each l w in
    let (files, w2) := RequiredFiles a w1 in
    (outs ++ [files], w2).
Proof.
  revert w. induction l as [|b l IH]; intros w; simpl; unfold bind, ret.
  - by destruct (RequiredFiles a w) as [files w2].
  - destruct (RequiredFiles b w) as [files' w1]. rewrite IH.
    destruct (RequiredFiles_each l w1) as [outs w2].
    by destruct (RequiredFiles a w2) as [files w3].
Qed.

(** X8. Registering a library analyzer appends its required files at the
    very end of what [RequiredFilenames] returned before.  Registering a
    package analyzer places its files after those of the package analyzers
    registered before it and ahead of all library files; registering an OS
    analyzer places its files after those of the OS analyzers registered
    before it and ahead of all package and library files. *)
Theorem RequiredFilenames_after_registration g w :
  (forall a : LibraryAnalyzer W Library,
     RequiredFilenames (RegisterLibraryAnalyzer a g) w
     = let (filenames, w1) := RequiredFilenames g w in
       let (files, w2) := RequiredFiles a w1 in
       (filenames ++ files, w2))
  /\ (forall a : PkgAnalyzer W,
     let (os, w1) := RequiredFiles_each (osAnalyzers g) w in
     let (pkg, w2) := RequiredFiles_each (pkgAnalyzers g) w1 in
     let (files, w3) := RequiredFiles a w2 in
     let (lib, w4) := RequiredFiles_each (libAnalyzers g) w3 in
     RequiredFilenames (RegisterPkgAnalyzer a g) w
     = (concat os ++ concat pkg ++ files ++ concat lib, w4))
  /\ (forall a : OSAnalyzer W,
     let (os, w1) := RequiredFiles_each (osAnalyzers g) w in
     let (files, w2) := RequiredFiles a w1 in
     let (pkg, w3) := RequiredFiles_each (pkgAnalyzers g) w2 in
     let (lib, w4) := RequiredFiles_each (libAnalyzers g) w3 in
     RequiredFilenames (RegisterOSAnalyzer a g) w
     = (concat os ++ files ++ concat pkg ++ concat lib, w4)).
Proof.
  split; [|split]; intros a; unfold RequiredFilenames; simpl.
  - rewrite !bind_run.
    destruct (appendRequiredFiles (osAnalyzers g) [] w) as [f1 w1].
    rewrite !bind_run.
    destruct (appendRequiredFiles (pkgAnalyzers g) f1 w1) as [f2 w2].
    rewrite !bind_run, appendRequiredFiles_app.
    destruct (appendRequiredFiles (libAnalyzers g) f2 w2) as [f3 w3].
    simpl. rewrite !bind_run.
    by destruct (RequiredFiles a w3) as [files w4].
  - rewrite bind_run, appendRequiredFiles_each.
    destruct (RequiredFiles_each (osAnalyzers g) w) as [os w1].
    rewrite bind_run, appendRequiredFiles_each, RequiredFiles_each_snoc.
    destruct (RequiredFiles_each (pkgAnalyzers g) w1) as [pkg w2].
    destruct (RequiredFiles a w2) as [files w3].
    rewrite bind_run, appendRequiredFiles_each.
    destruct (RequiredFiles_each (libAnalyzers g) w3) as [lib w4].
    unfold ret. simpl.
    by rewrite concat_app, <- !app_assoc; simpl; rewrite app_nil_r.
  - rewrite bind_run, appendRequiredFiles_each, RequiredFiles_each_snoc.
    destruct (RequiredFiles_each (osAnalyzers g) w) as [os w1].
    destruct (RequiredFiles a w1) as [files w2].
    rewrite bind_run, appendRequiredFiles_each.
    destruct (RequiredFiles_each (pkgAnalyzers g) w2) as [pkg w3].
    rewrite bind_run, appendRequiredFiles_each.
    destruct (RequiredFiles_each (libAnalyzers g) w3) as [lib w4].
    unfold ret. simpl.
    by rewrite concat_app, <- !app_assoc; simpl; rewrite app_nil_r.
Qed.

(** ** What the dispatchers leave of the world *)

Lemma appendRequiredFiles_invariant {A : Type} `{!HasRequiredFiles (W:=W) A}
    (P : W -> Prop) (l : list A) (filenames : list string) w :
  (forall a w, a ∈ l -> P w -> P (snd (RequiredFiles a w))) ->
  P w -> P (snd (appendRequiredFiles l filenames w)).
Proof.
  revert filenames w.
  induction l as [|a l IH]; intros filenames w Hkeep Hw; simpl; [done|].
  rewrite bind_run.
  assert (P (snd (RequiredFiles a w))) as Ha by (apply Hkeep; [by left|done]).
  destruct (RequiredFiles a w) as [files w1]. apply IH; [|done].
  intros b w2 Hb. apply Hkeep. by right.
Qed.

Lemma GetOS_range_invariant (P : W -> Prop) (l : list (OSAnalyzer W))
    filesMap w :
  (forall a w, a ∈ l -> P w -> P (snd (OSAnalyzer_Analyze a filesMap w))) ->
  P w -> P (snd (GetOS_range l filesMap w)).
Proof.
  revert w. induction l as [|a l IH]; intros w Hkeep Hw; simpl; [done|].
  rewrite bind_run.
  assert (P (snd (OSAnalyzer_Analyze a filesMap w))) as Ha
    by (apply Hkeep; [by left|done]).
  destruct (OSAnalyzer_Analyze a filesMap w) as [[os [e|]] w1]; [|done].
  apply IH; [|done]. intros b w2 Hb. apply Hkeep. by right.
Qed.

Lemma GetPackages_range_invariant (P : W -> Prop) (l : list (PkgAnalyzer W))
    filesMap w :
  (forall a w, a ∈ l -> P w -> P (snd (PkgAnalyzer_Analyze a filesMap w))) ->
  P w -> P (snd (GetPackages_range l filesMap w)).
Proof.
  revert w. induction l as [|a l IH]; intros w Hkeep Hw; simpl; [done|].
  rewrite bind_run.
  assert (P (snd (PkgAnalyzer_Analyze a filesMap w))) as Ha
    by (apply Hkeep; [by left|done]).
  destruct (PkgAnalyzer_Analyze a filesMap w) as [[pkgs [e|]] w1]; [|done].
  apply IH; [|done]. intros b w2 Hb. apply Hkeep. by right.
Qed.

Lemma GetLibraries_range_invariant (P : W -> Prop) (ord : RangeOrder Library)
    (i : nat) (l : list (LibraryAnalyzer W Library)) filesMap results w :
  (forall a w, a ∈ l -> P w -> P (snd (LibraryAnalyzer_Analyze a filesMap w))) ->
  P w -> P (snd (GetLibraries_range ord i l filesMap results w)).
Proof.
  revert i results w.
  induction l as [|a l IH]; intros i results w Hkeep Hw; simpl; [done|].
  rewrite bind_run.
  assert (P (snd (LibraryAnalyzer_Analyze a filesMap w))) as Ha
    by (apply Hkeep; [by left|done]).
  destruct (LibraryAnalyzer_Analyze a filesMap w) as [[m [e|]] w1]; [done|].
  apply IH; [|done]. intros b w2 Hb. apply Hkeep. by right.
Qed.

(** X9. The dispatchers touch the world through the plugin methods only,
    and each through the methods of its own kind: a property of the world
    that every [Analyze] of the registered OS analyzers keeps is kept by
    [GetOS], likewise [GetPackages] with the package analyzers and
    [GetLibraries] with the library analyzers, and a property that every
    [RequiredFiles] of the registered analyzers keeps is kept by
    [RequiredFilenames]. *)
Theorem dispatchers_keep_world_invariants (P : W -> Prop)
    (ord : RangeOrder Library) g filesMap w :
  P w ->
  ((forall a w, a ∈ osAnalyzers g -> P w ->
      P (snd (OSAnalyzer_Analyze a filesMap w))) ->
   P (snd (GetOS g filesMap w)))
  /\ ((forall a w, a ∈ pkgAnalyzers g -> P w ->
         P (snd (PkgAnalyzer_Analyze a filesMap w))) ->
      P (snd (GetPackages g filesMap w)))
  /\ ((forall a w, a ∈ libAnalyzers g -> P w ->
         P (snd (LibraryAnalyzer_Analyze a filesMap w))) ->
      P (snd (GetLibraries ord g filesMap w)))
  /\ ((forall a w, a ∈ osAnalyzers g -> P w ->
         P (snd (OSAnalyzer_RequiredFiles a w))) ->
      (forall a w, a ∈ pkgAnalyzers g -> P w ->
         P (snd (PkgAnalyzer_RequiredFiles a w))) ->
      (forall a w, a ∈ libAnalyzers g -> P w ->
         P (snd (LibraryAnalyzer_RequiredFiles a w))) ->
      P (snd (RequiredFilenames g w))).
Proof.
  intros Hw. split; [|split; [|split]].
  - intros Hkeep. unfold GetOS. by apply GetOS_range_invariant.
  - intros Hkeep. unfold GetPackages. by apply GetPackages_range_invariant.
  - intros Hkeep. unfold GetLibraries.
    by apply GetLibraries_range_invariant.
  - intros Ho Hp Hl. unfold RequiredFilenames. rewrite bind_run.
    pose proof (appendRequiredFiles_invariant P (osAnalyzers g) [] w Ho Hw)
      as H1.
    destruct (appendRequiredFiles (osAnalyzers g) [] w) as [f1 w1].
    rewrite bind_run.
    pose proof (appendRequiredFiles_invariant P (pkgAnalyzers g) f1 w1 Hp H1)
      as H2.
    destruct (appendRequiredFiles (pkgAnalyzers g) f1 w1) as [f2 w2].
    rewrite bind_run.
    pose proof (appendRequiredFiles_invariant P (libAnalyzers g) f2 w2 Hl H2)
      as H3.
    by destruct (appendRequiredFiles (libAnalyzers g) f2 w2) as [f3 w3].
Qed.

(** X12. Neither extraction entry point ever returns a file map beside an
    error: the result is either a file map with a nil error, or the nil map
    with an error whose message context is "Failed to extract files".  A
    file map the extractor delivered together with an error is dropped. *)
Theorem extraction_result_shape
    (New : DockerOption -> M W (Extractor W Ctx ReadCloser)) g (ctx : Ctx)
    (imageName : string) (r : ReadCloser) w :
  ((exists filesMap, fst (Analyze New g ctx imageName w) = (filesMap, None))
   \/ (exists err,
         fst (Analyze New g ctx imageName w)
         = (None, Some (errors_Wrap err "Failed to extract files"))))
  /\ ((exists filesMap, fst (AnalyzeFromFile New g ctx r w) = (filesMap, None))
      \/ (exists err,
            fst (AnalyzeFromFile New g ctx r w)
            = (None, Some (errors_Wrap err "Failed to extract files")))).
Proof.
  split.
  - unfold Analyze. rewrite bind_run.
    destruct (New _ w) as [e w1]. rewrite bind_run.
    destruct (RequiredFilenames g w1) as [filenames w2]. rewrite bind_run.
    destruct (Extract e ctx imageName filenames w2) as [[filesMap [err|]] w3].
    + right. by exists err.
    + left. by exists filesMap.
  - unfold AnalyzeFromFile. rewrite bind_run.
    destruct (New _ w) as [e w1]. rewrite bind_run.
    destruct (RequiredFilenames g w1) as [filenames w2]. rewrite bind_run.
    destruct (ExtractFromFile e ctx r filenames w2)
      as [[filesMap [err|]] w3].
    + right. by exists err.
    + left. by exists filesMap.
Qed.

End Properties.

(** * The properties on the small installation *)

Lemma ascending_lawful : range_lawful ascending.
Proof. intros i m. reflexivity. Qed.

Lemma descending_lawful : range_lawful descending.
Proof. intros i m. apply reverse_Permutation. Qed.

Lemma libReturns_deterministic {Ctx ReadCloser : Type} name libMap files :
  deterministic (libReturns (Ctx:=Ctx) (ReadCloser:=ReadCloser) name libMap files).
Proof. intros filesMap w w'. reflexivity. Qed.

Lemma installed_deterministic (a : LibraryAnalyzer World string) :
  a ∈ libAnalyzers installed -> deterministic a.
Proof.
  simpl. rewrite !elem_of_cons, elem_of_nil.
  intros [->|[->|[]]]; apply libReturns_deterministic.
Qed.

(** alpine errors, debian answers, ubuntu is not asked. *)
Lemma GetOS_first_success_witness :
  GetOS installed None [] = ((debian, None), [Analyzed "alpine"; Analyzed "debian"]).
Proof.
  apply (proj1 (GetOS_first_success installed None []))
    with (tried := [alpineOS]) (analyzer := debianOS) (later := [ubuntuOS])
         (w1 := [Analyzed "alpine"]).
  - reflexivity.
  - econstructor; [reflexivity | constructor].
  - reflexivity.
Defined.

(** apk errors, dpkg answers. *)
Lemma GetPackages_first_success_witness :
  GetPackages installed None [] = (([bash], None), [Analyzed "apk"; Analyzed "dpkg"]).
Proof.
  apply (proj1 (GetPackages_first_success installed None []))
    with (tried := [apk]) (analyzer := dpkg) (later := [])
         (w1 := [Analyzed "apk"]).
  - reflexivity.
  - econstructor; [reflexivity | constructor].
  - reflexivity.
Defined.

(** A succeeds, broken errors: nothing of A comes back and B is not run. *)
Lemma GetLibraries_fails_at_first_error_witness :
  GetLibraries ascending installed_broken None []
  = ((None, Some (xerrors_Errorf "failed to analyze libraries: %w"
                    (errors_New "broken"))),
     [Analyzed "A"; Analyzed "broken"]).
Proof.
  apply (GetLibraries_fails_at_first_error ascending installed_broken None []
           [libA] libBroken [libB] [Some {["/a" := ["lib1"]]}] None
           (errors_New "broken") [Analyzed "A"]).
  - reflexivity.
  - econstructor; [reflexivity | constructor].
  - reflexivity.
Defined.

(** A then B on the same path: the list of B, alone. *)
Lemma GetLibraries_merges_in_order_witness :
  GetLibraries descending installed None []
  = ((Some {["/a" := ["lib2"]]}, None), [Analyzed "A"; Analyzed "B"]).
Proof.
  refine (proj2 (proj2 (proj2
    (GetLibraries_merges_in_order descending installed None []
       [Some {["/a" := ["lib1"]]}; Some {["/a" := ["lib2"]]}]
       [Analyzed "A"; Analyzed "B"] descending_lawful _)))
    "lib1" "lib2" eq_refl).
  econstructor; [reflexivity|]. econstructor; [reflexivity|]. constructor.
Defined.

(** Two calls, in worlds and with visiting orders that differ. *)
Lemma GetLibraries_deterministic_witness :
  fst (GetLibraries ascending installed None [])
  = fst (GetLibraries descending installed None [Analyzed "earlier"]).
Proof.
  apply (proj1 (GetLibraries_deterministic ascending descending installed
           None [] [Analyzed "earlier"] ascending_lawful descending_lawful
           installed_deterministic)).
Defined.

(** Without determinism of the analyzers the conclusion is lost. *)
Example GetLibraries_of_a_moody_analyzer :
  fst (GetLibraries ascending
         (RegisterLibraryAnalyzer (libOnce "moody" (Some ∅)) Registry_init)
         None ([] : World))
  <> fst (GetLibraries ascending
            (RegisterLibraryAnalyzer (libOnce "moody" (Some ∅)) Registry_init)
            None ([Analyzed "earlier"] : World)).
Proof. discriminate. Qed.

(** Paths required twice are listed twice. *)
Lemma RequiredFilenames_concatenation_witness :
  RequiredFilenames installed []
  = (["etc/alpine-release"; "etc/os-release"; "etc/os-release";
      "etc/lsb-release"; "lib/apk/db/installed"; "var/lib/dpkg/status";
      "Gemfile.lock"; "Cargo.lock"], [])
  /\ occurrences "etc/os-release" (fst (RequiredFilenames installed [])) = 2%nat.
Proof.
  split.
  - exact (proj1 (RequiredFilenames_concatenation installed [])).
  - exact (proj2 (RequiredFilenames_concatenation installed [])
             "etc/os-release").
Defined.

Lemma CheckPackage_name_and_version_witness : CheckPackage bash = true.
Proof.
  apply (proj1 CheckPackage_name_and_version bash).
  split; discriminate.
Defined.

(** A failed pull and a successful one. *)
Lemma extraction_result_witness :
  Analyze (recorder pull_failed) installed tt "alpine:3.10" []
  = ((None,
      Some (errors_Wrap (errors_New "pull failed") "Failed to extract files")),
     [Extracted {| Timeout := 600000000000 |} tt "alpine:3.10"
        (fst (RequiredFilenames installed []))])
  /\ AnalyzeFromFile (recorder pulled) installed tt tt []
     = (pulled,
        [ExtractedFromFile {| Timeout := 0 |} tt tt
           (fst (RequiredFilenames installed []))]).
Proof.
  split.
  - eapply (proj1 (extraction_result (recorder pull_failed) installed tt))
      with (filesMap := Some ∅) (err := Some (errors_New "pull failed"));
      reflexivity.
  - eapply (proj2 (extraction_result (recorder pulled) installed tt))
      with (filesMap := fst pulled) (err := None); reflexivity.
Defined.

(** [picky] differs from the recorder only at options that are never used. *)
Lemma extractor_invocation_witness :
  Analyze picky installed tt "alpine:3.10"
  = Analyze (recorder pulled) installed tt "alpine:3.10"
  /\ AnalyzeFromFile picky installed tt tt
     = AnalyzeFromFile (recorder pulled) installed tt tt
  /\ snd (Analyze (recorder pulled) installed tt "alpine:3.10" [])
     = [Extracted {| Timeout := 600000000000 |} tt "alpine:3.10"
          ["etc/alpine-release"; "etc/os-release"; "etc/os-release";
           "etc/lsb-release"; "lib/apk/db/installed"; "var/lib/dpkg/status";
           "Gemfile.lock"; "Cargo.lock"]].
Proof.
  split; [|split].
  - apply (proj1 (@extractor_invocation World string unit unit)). reflexivity.
  - apply (proj1 (proj2 (@extractor_invocation World string unit unit))).
    reflexivity.
  - exact (proj1 (proj1 (proj2 (proj2
             (@extractor_invocation World string unit unit)))
             installed pulled tt "alpine:3.10" tt [])).
Defined.

(** alpine stays first whatever is called and registered afterwards. *)
Lemma registries_append_only_witness :
  osAnalyzers
    (fst (exec_all (recorder pulled)
            [CallGetOS None; CallRegisterOSAnalyzer debianOS;
             CallAnalyze tt "alpine:3.10"; CallGetLibraries ascending None;
             CallRegisterOSAnalyzer ubuntuOS; CallRequiredFilenames]
            (RegisterOSAnalyzer alpineOS (Registry_init (Library:=string)),
             []))) !! 0%nat
  = Some alpineOS.
Proof.
  apply (proj1 (proj2 (proj2 (proj2
           (proj2 (proj2 (proj2 (@registries_append_only World string unit unit)))
              (recorder pulled) _ _ _))))).
  reflexivity.
Defined.

(** * The further properties on the small installation *)

Lemma only_analyses_snoc (log : World) (name : string) :
  only_analyses log -> only_analyses (log ++ [Analyzed name]).
Proof.
  intros Hlog ev [Hin|Hin]%elem_of_app; [by apply Hlog|].
  apply list_elem_of_singleton in Hin as ->. by exists name.
Qed.

Lemma installed_os_only_analyses (a : OSAnalyzer World) (log : World) :
  a ∈ osAnalyzers installed -> only_analyses log ->
  only_analyses (snd (OSAnalyzer_Analyze a None log)).
Proof.
  simpl. rewrite !elem_of_cons, elem_of_nil.
  intros [->|[->|[->|[]]]] Hlog; by apply only_analyses_snoc.
Qed.

Lemma installed_ac_answers (a : LibraryAnalyzer World string) (log : World) :
  a ∈ libAnalyzers installed_ac ->
  fst (LibraryAnalyzer_Analyze a None log) = (answer_of a, None).
Proof.
  simpl. rewrite !elem_of_cons, elem_of_nil. by intros [->|[->|[]]].
Qed.

Lemma installed_ac_agree (a b : LibraryAnalyzer World string) :
  a ∈ libAnalyzers installed_ac -> b ∈ libAnalyzers installed_ac ->
  agree (answer_of a) (answer_of b).
Proof.
  simpl. intros Ha Hb.
  apply elem_of_cons in Ha as [->|Ha]; [|apply list_elem_of_singleton in Ha as ->];
    (apply elem_of_cons in Hb as [->|Hb];
       [|apply list_elem_of_singleton in Hb as ->]);
    intros path libs1 libs2; unfold answer_of; simpl;
    rewrite !lookup_singleton_Some; intros [<- <-] [H <-];
    done || discriminate H.
Qed.

Lemma installed_ac_same (a : LibraryAnalyzer World string) :
  a ∈ libAnalyzers installed_ac <-> a ∈ libAnalyzers installed_cac.
Proof. simpl. rewrite !elem_of_cons, elem_of_nil. tauto. Qed.

(** B registered after A and C: its list for "/a" replaces that of A, the
    entry of C stays. *)
Lemma GetLibraries_after_registration_witness :
  GetLibraries descending (RegisterLibraryAnalyzer libB installed_ac) None []
  = ((Some ({["/a" := ["lib2"]]} ∪ {["/a" := ["lib1"]; "/c" := ["lib3"]]}),
      None),
     [Analyzed "A"; Analyzed "C"; Analyzed "B"]).
Proof.
  exact (GetLibraries_after_registration descending installed_ac None []
           libB descending_lawful).
Defined.

(** The OS analyzers only ever log analyses, so [GetOS] does; required
    files are declared without touching the world, so [RequiredFilenames]
    leaves it as it was. *)
Lemma dispatchers_keep_world_invariants_witness :
  only_analyses (snd (GetOS installed None [Analyzed "earlier"]))
  /\ snd (RequiredFilenames installed [Analyzed "earlier"])
     = [Analyzed "earlier"].
Proof.
  split.
  - apply (proj1 (dispatchers_keep_world_invariants only_analyses ascending
                    installed None [Analyzed "earlier"]
                    (only_analyses_snoc [] "earlier" ltac:(by intros ? ?%elem_of_nil)))).
    intros a w. apply installed_os_only_analyses.
  - apply (proj2 (proj2 (proj2
             (dispatchers_keep_world_invariants
                (fun log => log = [Analyzed "earlier"]) ascending
                installed None [Analyzed "earlier"] eq_refl)))).
    + simpl. intros a w. rewrite !elem_of_cons, elem_of_nil.
      by intros [->|[->|[->|[]]]].
    + simpl. intros a w. rewrite !elem_of_cons, elem_of_nil.
      by intros [->|[->|[]]].
    + simpl. intros a w. rewrite !elem_of_cons, elem_of_nil.
      by intros [->|[->|[]]].
Defined.

(** A and C both succeed: the result holds "/a" and "/c" and each list is
    the one its analyzer returned. *)
Lemma GetLibraries_entries_come_from_analyzers_witness :
  exists results,
    GetLibraries ascending installed_ac None []
    = ((Some results, None), [Analyzed "A"; Analyzed "C"])
    /\ (forall path libs,
          results !! path = Some libs ->
          exists m,
            m ∈ [Some {["/a" := ["lib1"]]}; Some {["/c" := ["lib3"]]}]
            /\ entries m !! path = Some libs)
    /\ (forall path,
          is_Some (results !! path)
          <-> exists m,
                m ∈ [Some {["/a" := ["lib1"]]}; Some {["/c" := ["lib3"]]}]
                /\ is_Some (entries m !! path)).
Proof.
  apply (GetLibraries_entries_come_from_analyzers ascending installed_ac
           None [] _ _ ascending_lawful).
  econstructor; [reflexivity|]. econstructor; [reflexivity|]. constructor.
Defined.

(** A, C against C, A, C: the same map. *)
Lemma GetLibraries_order_irrelevant_without_collisions_witness :
  fst (GetLibraries ascending installed_ac None [])
  = fst (GetLibraries descending installed_cac None [Analyzed "earlier"]).
Proof.
  apply (GetLibraries_order_irrelevant_without_collisions ascending descending
           installed_ac installed_cac None [] [Analyzed "earlier"] answer_of
           ascending_lawful descending_lawful installed_ac_same).
  - intros a w. apply installed_ac_answers.
  - apply installed_ac_agree.
Defined.
